(** * verify_build.py: the build-and-test runner

    A shallow embedding of [src/verify_build.py] and the properties of its
    control flow.  The script changes into the repository directory, runs
    [dotnet build], and, when that succeeded, [dotnet test --no-build]; it
    relays what each child wrote and leaves with status 0 or 1.

    The operating system is a parameter of the development: a type of
    worlds, [os_chdir] and [spawn].  A script is a function from a world to
    a [result], which carries the trace of what the script did, in order. *)

From Stdlib Require Import String Ascii List ZArith Bool Lia.
Import ListNotations.
Local Open Scope string_scope.
Local Open Scope Z_scope.

(** ** Data *)

(** [subprocess.CompletedProcess], as [run_command] reads it: with
    [capture_output=True, text=True] both streams come back as [str]. *)
Record CommandResult : Type := mkResult {
  returncode : Z;
  stdout : string;
  stderr : string
}.

(** [sys.stdout] and [sys.stderr]. *)
Inductive stream : Type := Stdout | Stderr.

(** The exceptions that leave the script: [sys.exit(code)] raises
    [SystemExit]; [os.chdir] raises [OSError] (of which [EnvironmentError]
    is an alias). *)
Inductive exn : Type :=
| SystemExit (code : Z)
| OSError.

(** What the script does, one event per call.  [Printed] is a [print] of
    text the script composes itself, [Echoed] a [print] of a stream captured
    from a child.  [subprocess.run] is two events: the child is started
    ([Spawned]) and, once it has terminated, its result is at hand
    ([Completed]). *)
Inductive event : Type :=
| Chdir (path : string)
| Printed (file : stream) (text : string)
| Echoed (file : stream) (text : string)
| Spawned (cmd : string)
| Completed (r : CommandResult).

Definition trace := list event.

(** What a child does: it terminates with a result, leaving a new world,
    or it never terminates ([subprocess.run] has no timeout here). *)
Inductive child (World : Type) : Type :=
| Exits (r : CommandResult) (w : World)
| Hangs.
Arguments Exits {World} r w.
Arguments Hangs {World}.

(** How a piece of the script ends. *)
Inductive result (World A : Type) : Type :=
| Returned (a : A) (tr : trace) (w : World)
| Raised (e : exn) (tr : trace) (w : World)
| Blocked (tr : trace).
Arguments Returned {World A} a tr w.
Arguments Raised {World A} e tr w.
Arguments Blocked {World A} tr.

Definition trace_of {World A} (r : result World A) : trace :=
  match r with
  | Returned _ tr _ | Raised _ tr _ | Blocked tr => tr
  end.

Definition world_after {World A} (r : result World A) : option World :=
  match r with
  | Returned _ _ w | Raised _ _ w => Some w
  | Blocked _ => None
  end.

(** The status the interpreter leaves with: 0 when the script runs to its
    end, the argument of [sys.exit], 1 for an exception nobody caught. *)
Definition process_exit {World A} (r : result World A) : option Z :=
  match r with
  | Returned _ _ _ => Some 0
  | Raised (SystemExit c) _ _ => Some c
  | Raised OSError _ _ => Some 1
  | Blocked _ => None
  end.

(** ** Text *)

Definition nl : string := String (ascii_of_nat 10) EmptyString.

(** Python's [s * n]. *)
Fixpoint repeat_string (s : string) (n : nat) : string :=
  match n with
  | O => EmptyString
  | S n' => s ++ repeat_string s n'
  end.

(** Truth value of a [str]: false exactly for the empty one. *)
Definition truthy (s : string) : bool :=
  match s with
  | EmptyString => false
  | String _ _ => true
  end.


(** The shell splits a command line into words at spaces; an option is
    passed to the program when it is one of the words. *)
Fixpoint split_words (s : string) (cur : string) : list string :=
  match s with
  | EmptyString => [cur]
  | String c s' =>
      if Ascii.eqb c " "%char then cur :: split_words s' EmptyString
      else split_words s' (cur ++ String c EmptyString)
  end.

Definition words (s : string) : list string :=
  filter truthy (split_words s EmptyString).

Definition has_option (opt cmd : string) : bool :=
  existsb (String.eqb opt) (words cmd).

(** ['='*60], the rule above and below each description. *)
Definition separator : string := repeat_string "=" 60.

(** ** Reading a trace *)

(** The three prints ahead of each child, and the prints that relay what
    it wrote. *)
Definition banner (description : string) : trace :=
  [Printed Stdout (nl ++ separator);
   Printed Stdout description;
   Printed Stdout separator].

Definition relayed (r : CommandResult) : trace :=
  Echoed Stdout (stdout r) ::
  (if truthy (stderr r) then [Echoed Stderr (stderr r)] else []).

(** The commands of the children that were started, in order. *)
Fixpoint spawned (tr : trace) : list string :=
  match tr with
  | [] => []
  | Spawned cmd :: tr' => cmd :: spawned tr'
  | _ :: tr' => spawned tr'
  end.

Definition invocations (cmd : string) (tr : trace) : nat :=
  List.length (filter (String.eqb cmd) (spawned tr)).

(** The events that put text on a stream. *)
Definition writes_to (file : stream) (e : event) : bool :=
  match e, file with
  | Printed Stdout _, Stdout | Echoed Stdout _, Stdout => true
  | Printed Stderr _, Stderr | Echoed Stderr _, Stderr => true
  | _, _ => false
  end.

Definition on_stream (file : stream) (tr : trace) : trace :=
  filter (writes_to file) tr.

Definition is_output (e : event) : bool :=
  writes_to Stdout e || writes_to Stderr e.

(** The text a stream receives: [print] ends each text with a newline. *)
Fixpoint written (file : stream) (tr : trace) : string :=
  match tr with
  | [] => EmptyString
  | e :: tr' =>
      match e with
      | Printed f s | Echoed f s =>
          if writes_to file e then s ++ nl ++ written file tr'
          else written file tr'
      | _ => written file tr'
      end
  end.

(** The pass and fail lines of the script open with a blank line and a
    mark; the closing line is one fixed text. *)
Definition success_mark : string := nl ++ "✅".
Definition failure_mark : string := nl ++ "❌".

Definition is_success (e : event) : bool :=
  match e with
  | Printed _ s => prefix success_mark s
  | _ => false
  end.

Definition is_failure (e : event) : bool :=
  match e with
  | Printed _ s => prefix failure_mark s
  | _ => false
  end.

Definition is_summary (e : event) : bool :=
  match e with
  | Printed _ s => String.eqb s (nl ++ "🎉 All tasks completed successfully!")
  | _ => false
  end.

Definition is_indicator (e : event) : bool :=
  is_success e || is_failure e || is_summary e.

Definition indicators (tr : trace) : trace := filter is_indicator tr.

Definition count (p : event -> bool) (tr : trace) : nat :=
  List.length (filter p tr).

(** The children of a run with what came of each: the whole result, or
    [None] for a child that was started and never terminated. *)
Fixpoint child_results (tr : trace) : list (option CommandResult) :=
  match tr with
  | [] => []
  | Spawned _ :: tr' =>
      match tr' with
      | Completed r :: _ => Some r
      | _ => None
      end :: child_results tr'
  | _ :: tr' => child_results tr'
  end.

Definition child_statuses (tr : trace) : list (option Z) :=
  map (option_map returncode) (child_results tr).

(** The exit status that a list of child statuses leads to: no child at
    all is a failed [os.chdir]; a child that never terminates leaves no
    status; the first non-zero status ends the run with 1. *)
Definition verdict (statuses : list (option Z)) : option Z :=
  match statuses with
  | [] => Some 1
  | None :: _ => None
  | Some b :: rest =>
      if b =? 0 then
        match rest with
        | [] => Some 1
        | None :: _ => None
        | Some t :: _ => if t =? 0 then Some 0 else Some 1
        end
      else Some 1
  end.

(** ** The script monad *)

Section Script.

Variable World : Type.

(** [os.chdir]: the world with the new working directory, or [None] when
    the call raises [OSError]. *)
Variable os_chdir : string -> World -> option World.

(** What the child started by [subprocess.run(cmd, shell=True, ...)] does. *)
Variable spawn : string -> World -> child World.

Definition script (A : Type) : Type := World -> result World A.

Definition ret {A} (a : A) : script A := fun w => Returned a [] w.

Definition bind {A B} (m : script A) (k : A -> script B) : script B :=
  fun w =>
    match m w with
    | Returned a tr w' =>
        match k a w' with
        | Returned b tr' w'' => Returned b (tr ++ tr')%list w''
        | Raised e tr' w'' => Raised e (tr ++ tr')%list w''
        | Blocked tr' => Blocked (tr ++ tr')%list
        end
    | Raised e tr w' => Raised e tr w'
    | Blocked tr => Blocked tr
    end.

Notation "x <- m ;; k" := (bind m (fun x => k))
  (at level 61, m at next level, right associativity).
Notation "m ;; k" := (bind m (fun _ => k))
  (at level 61, right associativity).

(** [print(text)] and [print(text, file=sys.stderr)]. *)
Definition print (file : stream) (text : string) : script unit :=
  fun w => Returned tt [Printed file text] w.

(** The same call on a captured stream. *)
Definition print_captured (file : stream) (text : string) : script unit :=
  fun w => Returned tt [Echoed file text] w.

Definition sys_exit {A} (code : Z) : script A :=
  fun w => Raised (SystemExit code) [] w.

Definition chdir (path : string) : script unit :=
  fun w =>
    match os_chdir path w with
    | Some w' => Returned tt [Chdir path] w'
    | None => Raised OSError [Chdir path] w
    end.

(** [subprocess.run(cmd, shell=True, capture_output=True, text=True)]: the
    call returns when the child has terminated, and not before. *)
Definition subprocess_run (cmd : string) : script CommandResult :=
  fun w =>
    match spawn cmd w with
    | Exits r w' => Returned r [Spawned cmd; Completed r] w'
    | Hangs => Blocked [Spawned cmd]
    end.

(** ** The source *)

Definition run_command (cmd description : string) : script bool :=
  print Stdout (nl ++ separator) ;;
  print Stdout description ;;
  print Stdout separator ;;
  result <- subprocess_run cmd ;;
  print_captured Stdout (stdout result) ;;
  (if truthy (stderr result)
   then print_captured Stderr (stderr result)
   else ret tt) ;;
  ret (returncode result =? 0).

Definition working_directory : string := "/Users/pjawade/repos/DistributedLeasing".
Definition build_command : string := "dotnet build DistributedLeasing.sln".
Definition test_command : string := "dotnet test DistributedLeasing.sln --no-build".

Definition build_failed : string := nl ++ "❌ Build FAILED".
Definition build_success : string := nl ++ "✅ Build SUCCESS".
Definition tests_failed : string := nl ++ "❌ Tests FAILED".
Definition tests_passed : string := nl ++ "✅ Tests PASSED".
Definition all_completed : string := nl ++ "🎉 All tasks completed successfully!".

(** The body of [if __name__ == "__main__":]. *)
Definition main : script unit :=
  chdir working_directory ;;
  ok <- run_command build_command "Building Solution" ;;
  (if negb ok
   then print Stdout build_failed ;; sys_exit 1
   else ret tt) ;;
  print Stdout build_success ;;
  ok <- run_command test_command "Running Tests" ;;
  (if negb ok
   then print Stdout tests_failed ;; sys_exit 1
   else ret tt) ;;
  print Stdout tests_passed ;;
  print Stdout all_completed.

End Script.

Arguments ret {World A} a w.
Arguments bind {World A B} m k w.
Arguments print {World} file text w.
Arguments print_captured {World} file text w.
Arguments sys_exit {World A} code w.

(** ** A scripted operating system

    A host with a fixed set of directories and a table of programs, to run
    the script on concrete cases.  A command the table does not list ends
    the way the shell ends it, with status 127. *)
Module Fake.

Record host : Type := mkHost {
  directories : list string;
  programs : list (string * option CommandResult);
  cwd : string
}.

Definition os_chdir (path : string) (h : host) : option host :=
  if existsb (String.eqb path) (directories h)
  then Some (mkHost (directories h) (programs h) path)
  else None.

Fixpoint lookup (cmd : string) (tbl : list (string * option CommandResult))
  : option (option CommandResult) :=
  match tbl with
  | [] => None
  | (c, o) :: tbl' => if String.eqb cmd c then Some o else lookup cmd tbl'
  end.

Definition spawn (cmd : string) (h : host) : child host :=
  match lookup cmd (programs h) with
  | Some (Some r) => Exits r h
  | Some None => Hangs
  | None => Exits (mkResult 127 "" "sh: command not found") h
  end.

Definition repo : list string := [working_directory].

Definition elsewhere : string := "/tmp".

(** Both tools succeed. *)
Definition green : host :=
  mkHost repo
    [(build_command, Some (mkResult 0 "compiling..." ""));
     (test_command, Some (mkResult 0 "3 passed" ""))]
    elsewhere.

(** The same statuses with other text on both streams. *)
Definition green_noisy : host :=
  mkHost repo
    [(build_command, Some (mkResult 0 "Build succeeded." "warning CS0168"));
     (test_command, Some (mkResult 0 "Passed! 42 tests" "deprecated"))]
    elsewhere.

(** The build fails. *)
Definition broken_build : host :=
  mkHost repo
    [(build_command, Some (mkResult 1 "" "error: syntax"));
     (test_command, Some (mkResult 0 "3 passed" ""))]
    elsewhere.

(** The build succeeds, a test fails. *)
Definition red_tests : host :=
  mkHost repo
    [(build_command, Some (mkResult 0 "compiling..." ""));
     (test_command, Some (mkResult 1 "1 failed, 2 passed" ""))]
    elsewhere.

(** The repository is not there. *)
Definition no_repo : host :=
  mkHost [elsewhere]
    [(build_command, Some (mkResult 0 "compiling..." ""));
     (test_command, Some (mkResult 0 "3 passed" ""))]
    elsewhere.

(** The build never terminates. *)
Definition stuck_build : host :=
  mkHost repo [(build_command, None)] elsewhere.

Definition run (h : host) : result host unit := main host os_chdir spawn h.

Definition call (cmd description : string) (h : host) : result host bool :=
  run_command host spawn cmd description h.

End Fake.

(** ** Properties *)

Section Properties.

Variable World : Type.
Variable os_chdir : string -> World -> option World.
Variable spawn : string -> World -> child World.

Abbreviation run := (main World os_chdir spawn).
Abbreviation invoke := (run_command World spawn).

Ltac run_script :=
  unfold main, run_command, bind, chdir, subprocess_run,
    print, print_captured, ret, sys_exit.

(** *** One child *)

Lemma run_command_exits cmd description w r w' :
  spawn cmd w = Exits r w' ->
  invoke cmd description w =
  Returned (returncode r =? 0)
    (banner description ++ Spawned cmd :: Completed r :: relayed r)%list w'.
Proof.
  intros H. run_script. rewrite H. unfold relayed. simpl.
  destruct (truthy (stderr r)); reflexivity.
Qed.

Lemma run_command_hangs cmd description w :
  spawn cmd w = Hangs ->
  invoke cmd description w = Blocked (banner description ++ [Spawned cmd])%list.
Proof.
  intros H. run_script. rewrite H. reflexivity.
Qed.

(** *** The six ways a run can go *)

Lemma main_no_directory w :
  os_chdir working_directory w = None ->
  run w = Raised OSError [Chdir working_directory] w.
Proof.
  intros H. run_script. rewrite H. reflexivity.
Qed.

Lemma main_build_hangs w w0 :
  os_chdir working_directory w = Some w0 ->
  spawn build_command w0 = Hangs ->
  run w =
  Blocked (Chdir working_directory ::
           banner "Building Solution" ++ [Spawned build_command])%list.
Proof.
  intros Hc Hb. run_script. rewrite Hc. simpl. rewrite Hb. reflexivity.
Qed.

Lemma main_build_fails w w0 rb w1 :
  os_chdir working_directory w = Some w0 ->
  spawn build_command w0 = Exits rb w1 ->
  returncode rb <> 0 ->
  run w =
  Raised (SystemExit 1)
    (Chdir working_directory ::
     banner "Building Solution" ++
     Spawned build_command :: Completed rb :: relayed rb ++
     [Printed Stdout build_failed])%list w1.
Proof.
  intros Hc Hb Hz. apply Z.eqb_neq in Hz.
  run_script. rewrite Hc. simpl. rewrite Hb. unfold relayed. simpl.
  destruct (truthy (stderr rb)); simpl; rewrite Hz; reflexivity.
Qed.

Lemma main_test_hangs w w0 rb w1 :
  os_chdir working_directory w = Some w0 ->
  spawn build_command w0 = Exits rb w1 ->
  returncode rb = 0 ->
  spawn test_command w1 = Hangs ->
  run w =
  Blocked
    (Chdir working_directory ::
     banner "Building Solution" ++
     Spawned build_command :: Completed rb :: relayed rb ++
     Printed Stdout build_success ::
     banner "Running Tests" ++ [Spawned test_command])%list.
Proof.
  intros Hc Hb Hz Ht. apply Z.eqb_eq in Hz.
  run_script. rewrite Hc. simpl. rewrite Hb. unfold relayed. simpl.
  destruct (truthy (stderr rb)); simpl; rewrite Hz; simpl;
    rewrite Ht; reflexivity.
Qed.

Lemma main_tests_fail w w0 rb w1 rt w2 :
  os_chdir working_directory w = Some w0 ->
  spawn build_command w0 = Exits rb w1 ->
  returncode rb = 0 ->
  spawn test_command w1 = Exits rt w2 ->
  returncode rt <> 0 ->
  run w =
  Raised (SystemExit 1)
    (Chdir working_directory ::
     banner "Building Solution" ++
     Spawned build_command :: Completed rb :: relayed rb ++
     Printed Stdout build_success ::
     banner "Running Tests" ++
     Spawned test_command :: Completed rt :: relayed rt ++
     [Printed Stdout tests_failed])%list w2.
Proof.
  intros Hc Hb Hz Ht Hn. apply Z.eqb_eq in Hz. apply Z.eqb_neq in Hn.
  run_script. rewrite Hc. simpl. rewrite Hb. unfold relayed. simpl.
  destruct (truthy (stderr rb)); simpl; rewrite Hz; simpl;
    rewrite Ht; simpl;
    destruct (truthy (stderr rt)); simpl; rewrite Hn; reflexivity.
Qed.

Lemma main_all_pass w w0 rb w1 rt w2 :
  os_chdir working_directory w = Some w0 ->
  spawn build_command w0 = Exits rb w1 ->
  returncode rb = 0 ->
  spawn test_command w1 = Exits rt w2 ->
  returncode rt = 0 ->
  run w =
  Returned tt
    (Chdir working_directory ::
     banner "Building Solution" ++
     Spawned build_command :: Completed rb :: relayed rb ++
     Printed Stdout build_success ::
     banner "Running Tests" ++
     Spawned test_command :: Completed rt :: relayed rt ++
     [Printed Stdout tests_passed; Printed Stdout all_completed])%list w2.
Proof.
  intros Hc Hb Hz Ht Hn. apply Z.eqb_eq in Hz. apply Z.eqb_eq in Hn.
  run_script. rewrite Hc. simpl. rewrite Hb. unfold relayed. simpl.
  destruct (truthy (stderr rb)); simpl; rewrite Hz; simpl;
    rewrite Ht; simpl;
    destruct (truthy (stderr rt)); simpl; rewrite Hn; reflexivity.
Qed.

(** *** What a trace shows *)

(** Once the two relays are split by cases, a trace of the script is a
    list of known events and its readings compute. *)
Ltac read_trace :=
  unfold relayed;
  repeat match goal with
         | |- context [truthy (stderr ?r)] => destruct (truthy (stderr r))
         end;
  simpl; try reflexivity; auto.

(** The exit status is decided by the statuses of the children. *)
Lemma exit_by_statuses w :
  process_exit (run w) = verdict (child_statuses (trace_of (run w))).
Proof.
  destruct (os_chdir working_directory w) as [w0|] eqn:Hc;
    [| rewrite (main_no_directory _ Hc); reflexivity].
  destruct (spawn build_command w0) as [rb w1|] eqn:Hb;
    [| rewrite (main_build_hangs _ _ Hc Hb); reflexivity].
  destruct (Z.eq_dec (returncode rb) 0) as [Hz|Hz];
    [| rewrite (main_build_fails _ _ _ _ Hc Hb Hz);
       apply Z.eqb_neq in Hz; unfold child_statuses, relayed;
       destruct (truthy (stderr rb)); simpl; rewrite Hz; reflexivity].
  destruct (spawn test_command w1) as [rt w2|] eqn:Ht;
    [| rewrite (main_test_hangs _ _ _ _ Hc Hb Hz Ht);
       unfold child_statuses, relayed;
       destruct (truthy (stderr rb)); simpl; rewrite Hz; reflexivity].
  destruct (Z.eq_dec (returncode rt) 0) as [Hn|Hn].
  - rewrite (main_all_pass _ _ _ _ _ _ Hc Hb Hz Ht Hn).
    unfold child_statuses, relayed.
    destruct (truthy (stderr rb)), (truthy (stderr rt)); simpl;
      rewrite Hz, Hn; reflexivity.
  - rewrite (main_tests_fail _ _ _ _ _ _ Hc Hb Hz Ht Hn).
    apply Z.eqb_neq in Hn. unfold child_statuses, relayed.
    destruct (truthy (stderr rb)), (truthy (stderr rt)); simpl;
      rewrite Hz; simpl; rewrite Hn; reflexivity.
Qed.

(** A relayed text is one of the two captured streams, whole. *)
Lemma relayed_inv r pre f s post :
  relayed r = (pre ++ Echoed f s :: post)%list ->
  (f = Stdout /\ s = stdout r) \/ (f = Stderr /\ s = stderr r).
Proof.
  unfold relayed. intros H.
  destruct pre as [|e1 pre]; simpl in H.
  - destruct (truthy (stderr r)); inversion H; auto.
  - destruct (truthy (stderr r)); injection H as _ H.
    + destruct pre as [|e2 pre]; simpl in H.
      * inversion H; auto.
      * injection H as _ H. destruct pre; discriminate.
    + destruct pre; discriminate.
Qed.

(** *** The claims *)


(** C2. When the build exits with a status other than 0, the process
    leaves with status 1, the build failure line is printed (and is the
    only pass or fail line), and the test command is never started: the
    build is the only child of the run. *)
Theorem build_failure_skips_tests w w0 rb w1 :
  os_chdir working_directory w = Some w0 ->
  spawn build_command w0 = Exits rb w1 ->
  returncode rb <> 0 ->
  process_exit (run w) = Some 1 /\
  indicators (trace_of (run w)) = [Printed Stdout build_failed] /\
  is_failure (Printed Stdout build_failed) = true /\
  invocations test_command (trace_of (run w)) = 0%nat /\
  spawned (trace_of (run w)) = [build_command].
Proof.
  intros Hc Hb Hz.
  rewrite (main_build_fails _ _ _ _ Hc Hb Hz).
  unfold indicators, invocations. repeat split; read_trace.
Qed.

(** C3. When the build exits with status 0 and the test command with
    another status, the process leaves with status 1, prints one success
    indicator, the one of the build, and then one failure indicator, the
    one of the tests, and has started the test command exactly once. *)
Theorem test_failure_after_build w w0 rb w1 rt w2 :
  os_chdir working_directory w = Some w0 ->
  spawn build_command w0 = Exits rb w1 ->
  returncode rb = 0 ->
  spawn test_command w1 = Exits rt w2 ->
  returncode rt <> 0 ->
  process_exit (run w) = Some 1 /\
  indicators (trace_of (run w)) =
    [Printed Stdout build_success; Printed Stdout tests_failed] /\
  count is_success (trace_of (run w)) = 1%nat /\
  count is_failure (trace_of (run w)) = 1%nat /\
  invocations test_command (trace_of (run w)) = 1%nat.
Proof.
  intros Hc Hb Hz Ht Hn.
  rewrite (main_tests_fail _ _ _ _ _ _ Hc Hb Hz Ht Hn).
  unfold indicators, count, invocations. repeat split; read_trace.
Qed.

(** C4. When [os.chdir] to the working directory fails, the run ends
    there with [OSError] (the class [EnvironmentError] names): no child is
    started, neither build nor tests, and nothing is printed on either
    stream. *)
Theorem missing_directory_aborts w :
  os_chdir working_directory w = None ->
  exists tr,
    run w = Raised OSError tr w /\
    spawned tr = [] /\
    invocations build_command tr = 0%nat /\
    invocations test_command tr = 0%nat /\
    filter is_output tr = [].
Proof.
  intros Hc. exists [Chdir working_directory].
  rewrite (main_no_directory _ Hc). repeat split.
Qed.

(** C5. For a child that ran to its end, its captured standard error is
    printed on the error stream exactly when it is not empty; when it is
    empty nothing at all reaches the error stream; its captured standard
    output is printed in either case. *)
Theorem stderr_relayed_iff_nonempty cmd description w r w' :
  spawn cmd w = Exits r w' ->
  let tr := trace_of (invoke cmd description w) in
  (In (Echoed Stderr (stderr r)) tr <-> stderr r <> EmptyString) /\
  (stderr r <> EmptyString -> on_stream Stderr tr = [Echoed Stderr (stderr r)]) /\
  (stderr r = EmptyString ->
     on_stream Stderr tr = [] /\ written Stderr tr = EmptyString) /\
  In (Echoed Stdout (stdout r)) tr.
Proof.
  intros H tr. subst tr. rewrite (run_command_exits _ description _ _ _ H).
  unfold on_stream, relayed. simpl.
  destruct (stderr r) as [|c s] eqn:E; simpl.
  - repeat split; try congruence; auto 10.
    intros Hin. repeat (destruct Hin as [Hin|Hin]; try discriminate).
    contradiction.
  - repeat split; try congruence; auto 10.
Qed.

(** C6. When the build has succeeded, the children of the run are the
    build command and then the test command; the test command is the
    plain test invocation with [--no-build] appended, so the option is one
    of its words, and it is not among the words of the build command. *)
Theorem tests_run_with_no_build w w0 rb w1 :
  os_chdir working_directory w = Some w0 ->
  spawn build_command w0 = Exits rb w1 ->
  returncode rb = 0 ->
  spawned (trace_of (run w)) = [build_command; test_command] /\
  test_command = "dotnet test DistributedLeasing.sln" ++ " --no-build" /\
  has_option "--no-build" test_command = true /\
  has_option "--no-build" build_command = false.
Proof.
  intros Hc Hb Hz.
  assert (Hs : spawned (trace_of (run w)) = [build_command; test_command]).
  { destruct (spawn test_command w1) as [rt w2|] eqn:Ht.
    - destruct (Z.eq_dec (returncode rt) 0) as [Hn|Hn].
      + rewrite (main_all_pass _ _ _ _ _ _ Hc Hb Hz Ht Hn). read_trace.
      + rewrite (main_tests_fail _ _ _ _ _ _ Hc Hb Hz Ht Hn). read_trace.
    - rewrite (main_test_hangs _ _ _ _ Hc Hb Hz Ht). read_trace. }
  repeat split; [exact Hs | vm_compute; reflexivity ..].
Qed.

(** C7. In every call of [run_command] the banner comes first and ahead
    of the child: a blank line and a rule of 60 [=], the description, the
    same rule again.  Whatever is relayed afterwards is one of the two
    captured streams, whole, and is printed only once the child has
    terminated; the captured standard output of a child that terminated
    is relayed, and of a child that never terminates nothing is. *)
Theorem output_relayed_after_child cmd description w :
  exists rest,
    trace_of (invoke cmd description w) =
      (banner description ++ Spawned cmd :: rest)%list /\
    banner description =
      [Printed Stdout (nl ++ separator);
       Printed Stdout description;
       Printed Stdout separator] /\
    String.length separator = 60%nat /\
    (forall pre f s post,
        rest = (pre ++ Echoed f s :: post)%list ->
        exists r w',
          spawn cmd w = Exits r w' /\ In (Completed r) pre /\
          ((f = Stdout /\ s = stdout r) \/ (f = Stderr /\ s = stderr r))) /\
    (forall r w', spawn cmd w = Exits r w' -> In (Echoed Stdout (stdout r)) rest) /\
    (spawn cmd w = Hangs -> rest = []).
Proof.
  destruct (spawn cmd w) as [r w'|] eqn:H.
  - exists (Completed r :: relayed r).
    rewrite (run_command_exits _ description _ _ _ H).
    repeat split; try discriminate.
    + intros pre f s post E. exists r, w'. split; [reflexivity|].
      destruct pre as [|e pre]; simpl in E; [discriminate|].
      injection E as <- E. split; [left; reflexivity|].
      exact (relayed_inv _ _ _ _ _ E).
    + intros r' w'' E. injection E as <- <-. right. left. reflexivity.
  - exists []. rewrite (run_command_hangs _ description _ H).
    repeat split; try discriminate.
    intros pre f s post E. destruct pre; discriminate.
Qed.

(** C8. Run the script, and run it again in the world the first run left
    behind: when the children of the second run come out as those of the
    first did, statuses and output alike, the second run leaves with the
    status of the first. *)
Theorem rerun_same_exit w w1 :
  world_after (run w) = Some w1 ->
  child_results (trace_of (run w1)) = child_results (trace_of (run w)) ->
  process_exit (run w1) = process_exit (run w).
Proof.
  intros _ H. rewrite !exit_by_statuses. unfold child_statuses.
  rewrite H. reflexivity.
Qed.


End Properties.


(** ** The example scenarios of the specification *)

(** A build that writes [compiling...] and a test run that writes
    [3 passed], both with status 0: status 0, and standard output carries
    both texts and ends with the closing line. *)
Example scenario_all_green :
  process_exit (Fake.run Fake.green) = Some 0 /\
  written Stdout (trace_of (Fake.run Fake.green)) =
    nl ++ separator ++ nl ++ "Building Solution" ++ nl ++ separator ++ nl ++
    "compiling..." ++ nl ++ build_success ++ nl ++
    nl ++ separator ++ nl ++ "Running Tests" ++ nl ++ separator ++ nl ++
    "3 passed" ++ nl ++ tests_passed ++ nl ++ all_completed ++ nl /\
  written Stderr (trace_of (Fake.run Fake.green)) = EmptyString.
Proof. repeat split. Qed.

(** A build that writes [error: syntax] to standard error and ends with
    status 1: status 1, the text is on the error stream, and the banner of
    the tests is nowhere. *)
Example scenario_broken_build :
  process_exit (Fake.run Fake.broken_build) = Some 1 /\
  written Stderr (trace_of (Fake.run Fake.broken_build)) =
    "error: syntax" ++ nl /\
  In (Printed Stdout build_failed) (trace_of (Fake.run Fake.broken_build)) /\
  ~ In (Printed Stdout "Running Tests")
       (trace_of (Fake.run Fake.broken_build)).
Proof.
  repeat split.
  - simpl. auto 10.
  - simpl. intros H. repeat (destruct H as [H|H]; try discriminate). exact H.
Qed.

(** ** The claims on the scripted hosts *)


Lemma build_failure_skips_tests_witness :
  process_exit (Fake.run Fake.broken_build) = Some 1 /\
  indicators (trace_of (Fake.run Fake.broken_build)) =
    [Printed Stdout build_failed] /\
  is_failure (Printed Stdout build_failed) = true /\
  invocations test_command (trace_of (Fake.run Fake.broken_build)) = 0%nat /\
  spawned (trace_of (Fake.run Fake.broken_build)) = [build_command].
Proof.
  eapply (build_failure_skips_tests Fake.host Fake.os_chdir Fake.spawn
            Fake.broken_build);
    [reflexivity | reflexivity | simpl; lia].
Defined.

Lemma test_failure_after_build_witness :
  process_exit (Fake.run Fake.red_tests) = Some 1 /\
  indicators (trace_of (Fake.run Fake.red_tests)) =
    [Printed Stdout build_success; Printed Stdout tests_failed] /\
  count is_success (trace_of (Fake.run Fake.red_tests)) = 1%nat /\
  count is_failure (trace_of (Fake.run Fake.red_tests)) = 1%nat /\
  invocations test_command (trace_of (Fake.run Fake.red_tests)) = 1%nat.
Proof.
  eapply (test_failure_after_build Fake.host Fake.os_chdir Fake.spawn
            Fake.red_tests);
    [reflexivity | reflexivity | reflexivity | reflexivity | simpl; lia].
Defined.

Lemma missing_directory_aborts_witness :
  Fake.os_chdir working_directory Fake.no_repo = None /\
  exists tr,
    Fake.run Fake.no_repo = Raised OSError tr Fake.no_repo /\
    spawned tr = [] /\
    invocations build_command tr = 0%nat /\
    invocations test_command tr = 0%nat /\
    filter is_output tr = [].
Proof.
  split; [reflexivity |].
  apply (missing_directory_aborts Fake.host Fake.os_chdir Fake.spawn
           Fake.no_repo).
  reflexivity.
Defined.

(** The failing build of the second example of the specification:
    [error: syntax] on standard error, nothing on standard output. *)
Lemma stderr_relayed_iff_nonempty_witness :
  let r := mkResult 1 "" "error: syntax" in
  let tr := trace_of (Fake.call build_command "Building Solution"
                        Fake.broken_build) in
  (In (Echoed Stderr (stderr r)) tr <-> stderr r <> EmptyString) /\
  (stderr r <> EmptyString ->
     on_stream Stderr tr = [Echoed Stderr (stderr r)]) /\
  (stderr r = EmptyString ->
     on_stream Stderr tr = [] /\ written Stderr tr = EmptyString) /\
  In (Echoed Stdout (stdout r)) tr.
Proof.
  apply (stderr_relayed_iff_nonempty Fake.host Fake.spawn build_command
           "Building Solution" Fake.broken_build
           (mkResult 1 "" "error: syntax") Fake.broken_build).
  reflexivity.
Defined.

Lemma tests_run_with_no_build_witness :
  spawned (trace_of (Fake.run Fake.red_tests)) =
    [build_command; test_command] /\
  test_command = "dotnet test DistributedLeasing.sln" ++ " --no-build" /\
  has_option "--no-build" test_command = true /\
  has_option "--no-build" build_command = false.
Proof.
  eapply (tests_run_with_no_build Fake.host Fake.os_chdir Fake.spawn
            Fake.red_tests);
    reflexivity.
Defined.

(** The world a run leaves behind differs from the one it started in (the
    working directory has changed); the second run comes out the same. *)
Lemma rerun_same_exit_witness :
  exists h,
    world_after (Fake.run Fake.red_tests) = Some h /\
    h <> Fake.red_tests /\
    process_exit (Fake.run h) = process_exit (Fake.run Fake.red_tests).
Proof.
  exists (Fake.mkHost Fake.repo (Fake.programs Fake.red_tests)
            working_directory).
  split; [reflexivity |]. split; [discriminate |].
  apply (rerun_same_exit Fake.host Fake.os_chdir Fake.spawn); reflexivity.
Defined.



(** ** Further properties of the two functions *)

Section Coverage.

Variable World : Type.
Variable os_chdir : string -> World -> option World.
Variable spawn : string -> World -> child World.

Abbreviation go := (main World os_chdir spawn).
Abbreviation command := (run_command World spawn).

(** The decision tree of the script: every run is one of the six. *)
Lemma run_cases w :
  (os_chdir working_directory w = None /\
   go w = Raised OSError [Chdir working_directory] w) \/
  (exists w0, os_chdir working_directory w = Some w0 /\
    ((spawn build_command w0 = Hangs /\
      go w =
      Blocked (Chdir working_directory ::
               banner "Building Solution" ++ [Spawned build_command])%list) \/
     (exists rb w1, spawn build_command w0 = Exits rb w1 /\
       ((returncode rb <> 0 /\
         go w =
         Raised (SystemExit 1)
           (Chdir working_directory ::
            banner "Building Solution" ++
            Spawned build_command :: Completed rb :: relayed rb ++
            [Printed Stdout build_failed])%list w1) \/
        (returncode rb = 0 /\
          ((spawn test_command w1 = Hangs /\
            go w =
            Blocked
              (Chdir working_directory ::
               banner "Building Solution" ++
               Spawned build_command :: Completed rb :: relayed rb ++
               Printed Stdout build_success ::
               banner "Running Tests" ++ [Spawned test_command])%list) \/
           (exists rt w2, spawn test_command w1 = Exits rt w2 /\
             ((returncode rt <> 0 /\
               go w =
               Raised (SystemExit 1)
                 (Chdir working_directory ::
                  banner "Building Solution" ++
                  Spawned build_command :: Completed rb :: relayed rb ++
                  Printed Stdout build_success ::
                  banner "Running Tests" ++
                  Spawned test_command :: Completed rt :: relayed rt ++
                  [Printed Stdout tests_failed])%list w2) \/
              (returncode rt = 0 /\
               go w =
               Returned tt
                 (Chdir working_directory ::
                  banner "Building Solution" ++
                  Spawned build_command :: Completed rb :: relayed rb ++
                  Printed Stdout build_success ::
                  banner "Running Tests" ++
                  Spawned test_command :: Completed rt :: relayed rt ++
                  [Printed Stdout tests_passed;
                   Printed Stdout all_completed])%list w2))))))))).
Proof.
  destruct (os_chdir working_directory w) as [w0|] eqn:Hc;
    [right; exists w0; split; [reflexivity|]
    | left; split; [reflexivity | exact (main_no_directory _ _ _ _ Hc)]].
  destruct (spawn build_command w0) as [rb w1|] eqn:Hb;
    [right; exists rb, w1; split; [reflexivity|]
    | left; split; [reflexivity | exact (main_build_hangs _ _ _ _ _ Hc Hb)]].
  destruct (Z.eq_dec (returncode rb) 0) as [Hz|Hz];
    [right; split; [exact Hz|]
    | left; split; [exact Hz | exact (main_build_fails _ _ _ _ _ _ _ Hc Hb Hz)]].
  destruct (spawn test_command w1) as [rt w2|] eqn:Ht;
    [right; exists rt, w2; split; [reflexivity|]
    | left; split;
      [reflexivity | exact (main_test_hangs _ _ _ _ _ _ _ Hc Hb Hz Ht)]].
  destruct (Z.eq_dec (returncode rt) 0) as [Hn|Hn]; [right | left];
    (split; [exact Hn|]).
  - exact (main_all_pass _ _ _ _ _ _ _ _ _ Hc Hb Hz Ht Hn).
  - exact (main_tests_fail _ _ _ _ _ _ _ _ _ Hc Hb Hz Ht Hn).
Qed.

Ltac by_cases w :=
  destruct (run_cases w)
    as [[Hc E] |
        [w0 [Hc [[Hb E] |
                 [rb [w1 [Hb [[Hz E] |
                              [Hz [[Ht E] |
                                   [rt [w2 [Ht [[Hn E] | [Hn E]]]]]]]]]]]]]]].

(** Splits the relays by cases, after which a trace is a list of known
    events. *)
Ltac lay_out :=
  unfold banner, relayed; simpl;
  repeat (match goal with
          | Hq : truthy (stderr ?r) = _ |- context [truthy (stderr ?r)] =>
              rewrite Hq
          | |- context [truthy (stderr ?r)] =>
              destruct (truthy (stderr r)) eqn:?
          end; simpl).

(** *** [run_command] *)


(** X2. The text of one call, byte for byte.  Standard output gets a
    blank line, the rule, the description, the rule, and the captured
    output followed by a newline, so an empty capture still gives an
    empty line.  Standard error gets the captured error text and a
    newline, or nothing at all when that text is empty. *)
Theorem run_command_transcript cmd description w r w' :
  spawn cmd w = Exits r w' ->
  written Stdout (trace_of (command cmd description w)) =
    nl ++ separator ++ nl ++ description ++ nl ++ separator ++ nl ++
    stdout r ++ nl /\
  written Stderr (trace_of (command cmd description w)) =
    (if truthy (stderr r) then stderr r ++ nl else EmptyString).
Proof.
  intros H. rewrite (run_command_exits World spawn cmd description w r w' H).
  lay_out; split; reflexivity.
Qed.

(** *** The script *)

(** X3. Status 0 means what it says: the run leaves with 0 exactly when
    the directory was entered and both children terminated with status 0,
    the tests in the world the build left. *)
Theorem exit_zero_iff_both_pass w :
  process_exit (go w) = Some 0 <->
  exists w0 rb w1 rt w2,
    os_chdir working_directory w = Some w0 /\
    spawn build_command w0 = Exits rb w1 /\ returncode rb = 0 /\
    spawn test_command w1 = Exits rt w2 /\ returncode rt = 0.
Proof.
  split.
  - by_cases w; rewrite E; simpl; intros H; try discriminate H.
    exists w0, rb, w1, rt, w2. auto.
  - intros (w0 & rb & w1 & rt & w2 & Hc & Hb & Hz & Ht & Hn).
    rewrite (main_all_pass _ _ _ _ _ _ _ _ _ Hc Hb Hz Ht Hn). reflexivity.
Qed.

(** X4. The run never ends exactly when a child it started never
    terminates: the build, or the tests after a build with status 0.
    There is no timeout. *)
Theorem blocks_iff_child_hangs w :
  process_exit (go w) = None <->
  exists w0,
    os_chdir working_directory w = Some w0 /\
    (spawn build_command w0 = Hangs \/
     exists rb w1,
       spawn build_command w0 = Exits rb w1 /\ returncode rb = 0 /\
       spawn test_command w1 = Hangs).
Proof.
  split.
  - by_cases w; rewrite E; simpl; intros H; try discriminate H.
    + exists w0. auto.
    + exists w0. split; [exact Hc|]. right. exists rb, w1. auto.
  - intros (w0 & Hc & [Hb | (rb & w1 & Hb & Hz & Ht)]).
    + rewrite (main_build_hangs _ _ _ _ _ Hc Hb). reflexivity.
    + rewrite (main_test_hangs _ _ _ _ _ _ _ Hc Hb Hz Ht). reflexivity.
Qed.

(** X5. [sys.exit] is reached exactly when a stage terminated with a
    status other than 0: the build, or the tests after a good build. *)
Theorem sys_exit_iff_stage_fails w :
  (exists c tr w', go w = Raised (SystemExit c) tr w') <->
  exists w0 rb w1,
    os_chdir working_directory w = Some w0 /\
    spawn build_command w0 = Exits rb w1 /\
    (returncode rb <> 0 \/
     returncode rb = 0 /\
     exists rt w2, spawn test_command w1 = Exits rt w2 /\ returncode rt <> 0).
Proof.
  split.
  - intros (c & tr & w' & H). revert H.
    by_cases w; rewrite E; intros H; try discriminate H.
    + exists w0, rb, w1. auto.
    + exists w0, rb, w1. split; [exact Hc|]. split; [exact Hb|].
      right. split; [exact Hz|]. exists rt, w2. auto.
  - intros (w0 & rb & w1 & Hc & Hb & [Hz | (Hz & rt & w2 & Ht & Hn)]).
    + rewrite (main_build_fails _ _ _ _ _ _ _ Hc Hb Hz). eauto.
    + rewrite (main_tests_fail _ _ _ _ _ _ _ _ _ Hc Hb Hz Ht Hn). eauto.
Qed.


(** X7. The children of a run: none when [os.chdir] failed; otherwise the
    build command, followed by the test command exactly when the build
    terminated with status 0.  Nothing is started twice and nothing else
    is ever started. *)
Theorem children_of_a_run w :
  spawned (trace_of (go w)) =
    match os_chdir working_directory w with
    | None => []
    | Some w0 =>
        match spawn build_command w0 with
        | Exits rb _ =>
            if returncode rb =? 0
            then [build_command; test_command]
            else [build_command]
        | Hangs => [build_command]
        end
    end.
Proof.
  by_cases w; rewrite E, Hc; try rewrite Hb;
    try (apply Z.eqb_neq in Hz; rewrite Hz);
    try (apply Z.eqb_eq in Hz; rewrite Hz);
    lay_out; reflexivity.
Qed.

(** X8. The closing line is printed once by a run that leaves with
    status 0, and by no other run. *)
Theorem summary_only_on_success w :
  count is_summary (trace_of (go w)) =
    match process_exit (go w) with
    | Some 0 => 1%nat
    | _ => 0%nat
    end.
Proof.
  by_cases w; rewrite E; unfold count; lay_out; reflexivity.
Qed.


(** X10. A run that ends in [sys.exit] ends with status 1 right after a
    failure line on standard output: that line is the last event of the
    run, and before it there is no failure line and no closing line. *)
Theorem failure_line_is_last w c tr w' :
  go w = Raised (SystemExit c) tr w' ->
  c = 1 /\
  exists pre s,
    tr = (pre ++ [Printed Stdout s])%list /\
    is_failure (Printed Stdout s) = true /\
    count is_failure pre = 0%nat /\
    count is_summary pre = 0%nat.
Proof.
  by_cases w; rewrite E; intros H; try discriminate H;
    injection H as <- <- <-; (split; [reflexivity|]).
  - exists (Chdir working_directory ::
            banner "Building Solution" ++
            Spawned build_command :: Completed rb :: relayed rb)%list,
           build_failed.
    unfold count; lay_out; repeat split; reflexivity.
  - exists (Chdir working_directory ::
            banner "Building Solution" ++
            Spawned build_command :: Completed rb :: relayed rb ++
            Printed Stdout build_success ::
            banner "Running Tests" ++
            Spawned test_command :: Completed rt :: relayed rt)%list,
           tests_failed.
    unfold count; lay_out; repeat split; reflexivity.
Qed.

(** X11. Standard output of a run in which both stages pass, byte for
    byte: the banner and output of the build, its success line, the
    banner and output of the tests, their success line, the closing
    line.  What the children wrote to standard error is not in it. *)
Theorem success_transcript w w0 rb w1 rt w2 :
  os_chdir working_directory w = Some w0 ->
  spawn build_command w0 = Exits rb w1 ->
  returncode rb = 0 ->
  spawn test_command w1 = Exits rt w2 ->
  returncode rt = 0 ->
  written Stdout (trace_of (go w)) =
    nl ++ separator ++ nl ++ "Building Solution" ++ nl ++ separator ++ nl ++
    stdout rb ++ nl ++ build_success ++ nl ++
    nl ++ separator ++ nl ++ "Running Tests" ++ nl ++ separator ++ nl ++
    stdout rt ++ nl ++ tests_passed ++ nl ++ all_completed ++ nl.
Proof.
  intros Hc Hb Hz Ht Hn.
  rewrite (main_all_pass _ _ _ _ _ _ _ _ _ Hc Hb Hz Ht Hn).
  lay_out; reflexivity.
Qed.

(** X12. Standard output of a run whose build fails, byte for byte: the
    banner and output of the build and then the failure line, which is
    the end of it; no banner of the tests follows. *)
Theorem build_failure_transcript w w0 rb w1 :
  os_chdir working_directory w = Some w0 ->
  spawn build_command w0 = Exits rb w1 ->
  returncode rb <> 0 ->
  written Stdout (trace_of (go w)) =
    nl ++ separator ++ nl ++ "Building Solution" ++ nl ++ separator ++ nl ++
    stdout rb ++ nl ++ build_failed ++ nl.
Proof.
  intros Hc Hb Hz.
  rewrite (main_build_fails _ _ _ _ _ _ _ Hc Hb Hz).
  lay_out; reflexivity.
Qed.

End Coverage.

(** ** The further properties on the scripted hosts *)


(** The same build: nothing captured from standard output, so an empty
    line after the banner; the error text on standard error. *)
Lemma run_command_transcript_witness :
  written Stdout (trace_of (Fake.call build_command "Building Solution"
                              Fake.broken_build)) =
    nl ++ separator ++ nl ++ "Building Solution" ++ nl ++ separator ++ nl ++
    "" ++ nl /\
  written Stderr (trace_of (Fake.call build_command "Building Solution"
                              Fake.broken_build)) =
    "error: syntax" ++ nl.
Proof.
  apply (run_command_transcript Fake.host Fake.spawn build_command
           "Building Solution" Fake.broken_build
           (mkResult 1 "" "error: syntax") Fake.broken_build).
  reflexivity.
Defined.

Lemma failure_line_is_last_witness :
  1 = 1 /\
  exists pre s,
    trace_of (Fake.run Fake.red_tests) = (pre ++ [Printed Stdout s])%list /\
    is_failure (Printed Stdout s) = true /\
    count is_failure pre = 0%nat /\
    count is_summary pre = 0%nat.
Proof.
  eapply (failure_line_is_last Fake.host Fake.os_chdir Fake.spawn
            Fake.red_tests).
  reflexivity.
Defined.

Lemma success_transcript_witness :
  written Stdout (trace_of (Fake.run Fake.green_noisy)) =
    nl ++ separator ++ nl ++ "Building Solution" ++ nl ++ separator ++ nl ++
    "Build succeeded." ++ nl ++ build_success ++ nl ++
    nl ++ separator ++ nl ++ "Running Tests" ++ nl ++ separator ++ nl ++
    "Passed! 42 tests" ++ nl ++ tests_passed ++ nl ++ all_completed ++ nl.
Proof.
  exact (success_transcript Fake.host Fake.os_chdir Fake.spawn
           Fake.green_noisy
           (Fake.mkHost Fake.repo (Fake.programs Fake.green_noisy)
              working_directory)
           (mkResult 0 "Build succeeded." "warning CS0168")
           (Fake.mkHost Fake.repo (Fake.programs Fake.green_noisy)
              working_directory)
           (mkResult 0 "Passed! 42 tests" "deprecated")
           (Fake.mkHost Fake.repo (Fake.programs Fake.green_noisy)
              working_directory)
           eq_refl eq_refl eq_refl eq_refl eq_refl).
Defined.

Lemma build_failure_transcript_witness :
  written Stdout (trace_of (Fake.run Fake.broken_build)) =
    nl ++ separator ++ nl ++ "Building Solution" ++ nl ++ separator ++ nl ++
    "" ++ nl ++ build_failed ++ nl.
Proof.
  apply (build_failure_transcript Fake.host Fake.os_chdir Fake.spawn
           Fake.broken_build
           (Fake.mkHost Fake.repo (Fake.programs Fake.broken_build)
              working_directory)
           (mkResult 1 "" "error: syntax")
           (Fake.mkHost Fake.repo (Fake.programs Fake.broken_build)
              working_directory));
    [reflexivity | reflexivity | simpl; lia].
Defined.
